(** * A shallow embedding of [flask SELFLEARN/app.py]

    The module registers two views on one Flask application:

    - [list_tasks], bound to [GET /api/tasks] by [@app.get], and
    - [create_task], bound to [POST /api/tasks] by [@app.post].

    Python values are embedded as the inductive type [Py.value]; a view is a
    computation in a state-and-exception monad over an arbitrary interpreter
    state [Σ]; the route table is the list the two decorators build.  The
    framework call [request.get_json()] is not part of the module: how it
    ends on a given request is a datum of the request. *)

From Stdlib Require Import ZArith String.
From Stdlib.Floats Require Import SpecFloat.
From stdpp Require Import base option list gmap strings fin_maps.

Local Open Scope string_scope.
Local Open Scope Z_scope.

(** ** Python values *)

Module Py.

(** The values [request.get_json()] can evaluate to, which are also the
    values [jsonify] is given: [None], [bool], [int], [float], [str], [list]
    and [dict] with string keys.  A float is kept as its IEEE 754 datum. *)
#[warnings="-register-all"]
Inductive value : Type :=
  | VNone
  | VBool (b : bool)
  | VInt (n : Z)
  | VFloat (x : spec_float)
  | VStr (s : string)
  | VList (l : list value)
  | VDict (d : gmap string value).

(** [bool(v)]: the truth value Python's [if v] and [not v] test.  Numbers
    are true when non-zero (a NaN or an infinity is true, either zero is
    false), containers and strings when their [len] is non-zero. *)
Definition truthy (v : value) : bool :=
  match v with
  | VNone => false
  | VBool b => b
  | VInt n => negb (n =? 0)
  | VFloat x => match x with S754_zero _ => false | _ => true end
  | VStr s => negb (String.length s =? 0)%nat
  | VList l => negb (length l =? 0)%nat
  | VDict d => negb (size d =? 0)%nat
  end.

(** [type(v).__name__], as it appears in an [AttributeError]. *)
Definition type_name (v : value) : string :=
  match v with
  | VNone => "NoneType"
  | VBool _ => "bool"
  | VInt _ => "int"
  | VFloat _ => "float"
  | VStr _ => "str"
  | VList _ => "list"
  | VDict _ => "dict"
  end.

Definition is_dict (v : value) : bool :=
  match v with VDict _ => true | _ => false end.

Definition is_str (v : value) : bool :=
  match v with VStr _ => true | _ => false end.

(** Exceptions other than werkzeug's HTTP exceptions. *)
Inductive exn : Type :=
  | AttributeError (type attr : string).

End Py.

Export Py.

(** ** Requests, responses and view results *)

Inductive http_method : Type :=
  GET | HEAD | POST | PUT | PATCH | DELETE | OPTIONS.

#[global] Instance http_method_eq_dec : EqDecision http_method.
Proof. solve_decision. Defined.

(** How the call [request.get_json()] ends.  It returns the parsed JSON
    document ([None] only for the document [null]), or it raises an HTTP
    exception of its own: [UnsupportedMediaType] (415) when the request's
    content type is not JSON, [BadRequest] (400) when the body, an empty
    body included, is not a JSON document.  The code and the description of
    that exception are the framework's. *)
Inductive get_json_result : Type :=
  | Parsed (doc : value)
  | Rejected (code : Z) (description : string).

(** The part of Flask's context-local [request] the module reads, with the
    method and path the route table is matched against.  [get_json] is how
    the call [request.get_json()] ends on this request. *)
Record Request : Type := {
  method : http_method;
  path : string;
  get_json : get_json_result;
}.

(** A [flask.Response] built by [jsonify]: the status code, the mimetype and
    the document that is serialised into the body. *)
Record Response : Type := {
  status_code : Z;
  mimetype : string;
  json : value;
}.

(** How a call ends: it returns, [abort] raises an HTTP exception carrying a
    status code and a description, or another exception propagates. *)
Inductive result (A : Type) : Type :=
  | Returned (a : A)
  | Aborted (code : Z) (description : string)
  | Raised (e : exn).

Arguments Returned {A} a.
Arguments Aborted {A} code description.
Arguments Raised {A} e.

(** What a view may return: a response, or a pair of a response and the
    status code to give it. *)
Inductive view_rv : Type :=
  | RvResponse (r : Response)
  | RvStatus (r : Response) (status : Z).

(** The status line the client sees: a returned response has its own code,
    an HTTP exception its code, any other exception is a server fault. *)
Definition status_of (r : result Response) : Z :=
  match r with
  | Returned resp => status_code resp
  | Aborted code _ => code
  | Raised _ => 500
  end.

(** A status in the 4xx class. *)
Definition is_client_error (r : result Response) : bool :=
  (400 <=? status_of r) && (status_of r <? 500).

(** ** The monad of views *)

Section Views.

(** The state of the running program: everything that outlives a request. *)
Context {Σ : Type}.

Definition M (A : Type) : Type := Σ -> result A * Σ.

Definition ret {A} (a : A) : M A := fun σ => (Returned a, σ).

Definition bind {A B} (m : M A) (k : A -> M B) : M B :=
  fun σ =>
    match m σ with
    | (Returned a, σ') => k a σ'
    | (Aborted code description, σ') => (Aborted code description, σ')
    | (Raised e, σ') => (Raised e, σ')
    end.

Definition raise {A} (e : exn) : M A := fun σ => (Raised e, σ).

(** [abort(code, description=...)] never returns. *)
Definition abort {A} (code : Z) (description : string) : M A :=
  fun σ => (Aborted code description, σ).

Notation "'do' x <- m ; k" := (bind m (fun x => k))
  (at level 10, x name, m at level 100, k at level 200, only parsing).

(** [v.get(key)]: only a [dict] has the attribute; a missing key gives
    [None]. *)
Definition py_get (v : value) (key : string) : M value :=
  match v with
  | VDict d => ret (default VNone (d !! key))
  | _ => raise (AttributeError (type_name v) "get")
  end.

(** [request.get_json()]: the parsed document, or the framework's HTTP
    exception, which propagates like one raised by [abort]. *)
Definition request_get_json (request : Request) : M value :=
  match get_json request with
  | Parsed doc => ret doc
  | Rejected code description => abort code description
  end.

(** [jsonify(doc)]: a 200 response of type [application/json]. *)
Definition jsonify (doc : value) : M Response :=
  ret {| status_code := 200; mimetype := "application/json"; json := doc |}.

(** ** The two views *)

(** [[
    @app.get("/api/tasks")
    def list_tasks():
        return jsonify([{"id": 1, "title": "Task 1"}])
    ]] *)
Definition list_tasks : M view_rv :=
  do r <- jsonify (VList [VDict {[ "id" := VInt 1; "title" := VStr "Task 1" ]}]);
  ret (RvResponse r).

(** [[
    @app.post("/api/tasks")
    def create_task():
        data = request.get_json()
        title = data.get("title") if data else None
        if not title:
            abort(400, description="title required")
        return jsonify({"id": 2, "title": title}), 201
    ]] *)
Definition create_task (request : Request) : M view_rv :=
  do data <- request_get_json request;
  do title <- (if truthy data then py_get data "title" else ret VNone);
  do _ <- (if negb (truthy title) then abort 400 "title required" else ret tt);
  do r <- jsonify (VDict {[ "id" := VInt 2; "title" := title ]});
  ret (RvStatus r 201).

(** ** Routing and the request loop *)

Inductive endpoint : Type := ep_list_tasks | ep_create_task.

(** The rules the two decorators add, in the order they run, each with the
    methods on which its view is run: [@app.get] registers GET and, with it,
    HEAD; [@app.post] registers POST.  (Both rules also accept OPTIONS, which
    the framework answers itself without running the view.) *)
Definition url_map : list (list http_method * string * endpoint) :=
  [ ([GET; HEAD], "/api/tasks", ep_list_tasks);
    ([POST], "/api/tasks", ep_create_task) ].

Definition rule_matches (req : Request)
    (rule : list http_method * string * endpoint) : bool :=
  bool_decide (method req ∈ rule.1.1) && String.eqb rule.1.2 (path req).

Definition match_rule (req : Request) : option endpoint :=
  snd <$> List.find (rule_matches req) url_map.

Definition view_functions (e : endpoint) (req : Request) : M view_rv :=
  match e with
  | ep_list_tasks => list_tasks
  | ep_create_task => create_task req
  end.

(** A returned pair overrides the status code of its response. *)
Definition make_response (rv : view_rv) : Response :=
  match rv with
  | RvResponse r => r
  | RvStatus r status =>
      {| status_code := status; mimetype := mimetype r; json := json r |}
  end.

(** Running a view on a request: the response object it builds, or the
    exception it ends in.  (Of the response to a HEAD the server sends the
    status and the headers only.) *)
Definition call_view (e : endpoint) (req : Request) : M Response :=
  do rv <- view_functions e req;
  ret (make_response rv).

(** One request.  [None] stands for a request on which no view of this
    module is run: the framework answers it. *)
Definition handle (req : Request) (σ : Σ) : option (result Response) * Σ :=
  match match_rule req with
  | Some e => let '(r, σ') := call_view e req σ in (Some r, σ')
  | None => (None, σ)
  end.

(** A sequence of requests served one after the other by one process. *)
Fixpoint serve (reqs : list Request) (σ : Σ)
    : list (option (result Response)) * Σ :=
  match reqs with
  | [] => ([], σ)
  | req :: reqs' =>
      let '(r, σ') := handle req σ in
      let '(rs, σ'') := serve reqs' σ' in
      (r :: rs, σ'')
  end.

End Views.

(** ** Requests and observations used in the statements *)

(** [POST /api/tasks] with a body that [request.get_json()] parses into
    the document [body]. *)
Definition post_tasks (body : value) : Request :=
  {| method := POST; path := "/api/tasks"; get_json := Parsed body |}.

(** [GET /api/tasks]; whatever the request carries, a body that is no JSON
    included, is not read. *)
Definition get_tasks (body : get_json_result) : Request :=
  {| method := GET; path := "/api/tasks"; get_json := body |}.

(** What [get_json] raises when the request's content type is not JSON,
    an absent body with no content type included. *)
Definition unsupported_media_type : get_json_result :=
  Rejected 415 "Did not attempt to load JSON data because the request Content-Type was not 'application/json'.".

(** What [get_json] raises when the content type is JSON and the body, an
    empty one included, is not a JSON document; this is werkzeug's default
    description, which debug mode replaces by the parser's message. *)
Definition bad_request : get_json_result :=
  Rejected 400 "The browser (or proxy) sent a request that this server could not understand.".

(** The ["title"] member of a JSON document, when the document is an object
    that has one. *)
Definition title_field (data : value) : option value :=
  match data with
  | VDict d => d !! "title"
  | _ => None
  end.

(** The ["id"] member of a response's document. *)
Definition response_id (r : Response) : option value :=
  match json r with
  | VDict d => d !! "id"
  | _ => None
  end.

(** The title is there and true in Python's sense. *)
Definition title_truthy (data : value) : bool :=
  match title_field data with
  | Some v => truthy v
  | None => false
  end.

(** The reading of "missing or empty" that the specification spells out: no
    title member at all, or the empty string. *)
Definition title_missing_or_empty (data : value) : Prop :=
  title_field data = None \/ title_field data = Some (VStr "").

(** * Properties *)

Section Properties.

Context {Σ : Type}.
Implicit Types (σ : Σ) (req : Request) (d : gmap string value) (v : value).

(** ** How [create_task] ends, case by case *)

Lemma dict_with_key_truthy d k v :
  d !! k = Some v -> truthy (VDict d) = true.
Proof.
  intros Hk. simpl.
  assert (size d <> 0%nat) as Hsz
    by (apply map_size_non_empty_iff; intros ->; by rewrite lookup_empty in Hk).
  destruct (Nat.eqb_spec (size d) 0); [contradiction | reflexivity].
Qed.

Lemma truthy_str_nonempty (t : string) : t <> "" -> truthy (VStr t) = true.
Proof. destruct t; [congruence | reflexivity]. Qed.

Lemma falsy_has_no_truthy_title (body : value) :
  truthy body = false -> title_truthy body = false.
Proof.
  intros Ht. destruct body as [| | | | | |d]; try reflexivity.
  unfold title_truthy, title_field.
  destruct (d !! "title") as [v|] eqn:Hk; [| reflexivity].
  by rewrite (dict_with_key_truthy d _ v Hk) in Ht.
Qed.


(** When [get_json] raises, nothing after it runs. *)
Lemma create_task_rejected req σ code description :
  get_json req = Rejected code description ->
  create_task req σ = (Aborted code description, σ).
Proof.
  intros Hj. unfold create_task, bind, request_get_json. by rewrite Hj.
Qed.

(** A body that is false in Python's sense never reaches [.get]. *)
Lemma create_task_falsy_body req σ (body : value) :
  get_json req = Parsed body -> truthy body = false ->
  create_task req σ = (Aborted 400 "title required", σ).
Proof.
  intros Hj Hd. unfold create_task, bind, request_get_json, ret.
  rewrite Hj, Hd. reflexivity.
Qed.

(** A true body that is a [dict]: the title decides. *)
Lemma create_task_dict req σ d :
  get_json req = Parsed (VDict d) -> truthy (VDict d) = true ->
  create_task req σ =
    if truthy (default VNone (d !! "title"))
    then (Returned (RvStatus
            {| status_code := 200; mimetype := "application/json";
               json := VDict {[ "id" := VInt 2;
                                "title" := default VNone (d !! "title") ]} |}
            201), σ)
    else (Aborted 400 "title required", σ).
Proof.
  intros Hj Ht. unfold create_task, bind, request_get_json, ret.
  rewrite Hj, Ht. unfold py_get, ret.
  destruct (truthy (default VNone (d !! "title"))); reflexivity.
Qed.

(** A true body that is not a [dict] has no [get]. *)
Lemma create_task_no_get req σ (body : value) :
  get_json req = Parsed body -> truthy body = true -> is_dict body = false ->
  create_task req σ = (Raised (AttributeError (type_name body) "get"), σ).
Proof.
  intros Hj Ht Hd. unfold create_task, bind, request_get_json, ret.
  rewrite Hj, Ht.
  destruct body; try discriminate Hd; reflexivity.
Qed.

Lemma create_task_title_truthy req σ d v :
  get_json req = Parsed (VDict d) -> d !! "title" = Some v -> truthy v = true ->
  call_view ep_create_task req σ =
    (Returned {| status_code := 201; mimetype := "application/json";
                 json := VDict {[ "id" := VInt 2; "title" := v ]} |}, σ).
Proof.
  intros Hd Hk Hv. unfold call_view, bind, view_functions.
  rewrite (create_task_dict req σ d Hd (dict_with_key_truthy d _ v Hk)).
  rewrite Hk. simpl. rewrite Hv. reflexivity.
Qed.

Lemma create_task_title_falsy req σ d :
  get_json req = Parsed (VDict d) ->
  truthy (default VNone (d !! "title")) = false ->
  call_view ep_create_task req σ = (Aborted 400 "title required", σ).
Proof.
  intros Hd Hv. unfold call_view, bind, view_functions.
  destruct (truthy (VDict d)) eqn:Ht.
  - rewrite (create_task_dict req σ d Hd Ht), Hv. reflexivity.
  - rewrite (create_task_falsy_body req σ (VDict d) Hd Ht). reflexivity.
Qed.

(** Every way the view can end, by how [get_json] ended. *)
Lemma create_task_answer req σ :
  call_view ep_create_task req σ =
    (match get_json req with
     | Rejected code description => Aborted code description
     | Parsed body =>
         if truthy body
         then if is_dict body
              then if title_truthy body
                   then Returned
                          {| status_code := 201; mimetype := "application/json";
                             json := VDict {[ "id" := VInt 2;
                                              "title" := default VNone
                                                           (title_field body) ]} |}
                   else Aborted 400 "title required"
              else Raised (AttributeError (type_name body) "get")
         else Aborted 400 "title required"
     end, σ).
Proof.
  destruct (get_json req) as [body | code description] eqn:Hj.
  - destruct (truthy body) eqn:Ht.
    + destruct (is_dict body) eqn:Hd.
      * destruct body as [| | | | | |d]; try discriminate Hd.
        unfold title_truthy, title_field.
        destruct (d !! "title") as [v|] eqn:Hk.
        -- simpl. destruct (truthy v) eqn:Hv.
           ++ exact (create_task_title_truthy req σ d v Hj Hk Hv).
           ++ apply (create_task_title_falsy req σ d Hj). by rewrite Hk.
        -- apply (create_task_title_falsy req σ d Hj). by rewrite Hk.
      * unfold call_view at 1, bind, view_functions.
        by rewrite (create_task_no_get req σ body Hj Ht Hd).
    + unfold call_view at 1, bind, view_functions.
      by rewrite (create_task_falsy_body req σ body Hj Ht).
  - unfold call_view at 1, bind, view_functions.
    by rewrite (create_task_rejected req σ code description Hj).
Qed.

(** ** The state is a frame *)

Lemma create_task_state req σ : (create_task req σ).2 = σ.
Proof.
  destruct (get_json req) as [body | code description] eqn:Hj.
  - destruct (truthy body) eqn:Ht.
    + destruct (is_dict body) eqn:Hd.
      * destruct body as [| | | | | |d]; try discriminate Hd.
        rewrite (create_task_dict req σ d Hj Ht).
        destruct (truthy (default VNone (d !! "title"))); reflexivity.
      * by rewrite (create_task_no_get req σ body Hj Ht Hd).
    + by rewrite (create_task_falsy_body req σ body Hj Ht).
  - by rewrite (create_task_rejected req σ code description Hj).
Qed.

Lemma list_tasks_run σ :
  list_tasks σ =
    (Returned (RvResponse
       {| status_code := 200; mimetype := "application/json";
          json := VList [VDict {[ "id" := VInt 1; "title" := VStr "Task 1" ]}] |}),
     σ).
Proof. reflexivity. Qed.

Lemma call_view_state e req σ : (call_view e req σ).2 = σ.
Proof.
  destruct e; [reflexivity |]. by rewrite create_task_answer.
Qed.

End Properties.

(** ** The request loop *)

Section Loop.

Context {Σ : Type}.
Implicit Types (σ : Σ) (req : Request).

(** What a view answers does not depend on the state it runs in. *)
Lemma call_view_answer e req σ (T : Type) (τ : T) :
  (call_view e req σ).1 = (call_view (Σ := T) e req τ).1.
Proof.
  destruct e; [reflexivity |]. by rewrite !create_task_answer.
Qed.

Lemma handle_state req σ : (handle req σ).2 = σ.
Proof.
  unfold handle. destruct (match_rule req) as [e|]; [| reflexivity].
  pose proof (call_view_state e req σ) as Hs.
  destruct (call_view e req σ); simpl in *; by subst.
Qed.

Lemma handle_answer req σ (T : Type) (τ : T) :
  (handle req σ).1 = (handle (Σ := T) req τ).1.
Proof.
  unfold handle. destruct (match_rule req) as [e|]; [| reflexivity].
  pose proof (call_view_answer e req σ T τ) as Ha.
  destruct (call_view e req σ), (call_view e req τ); simpl in *; by subst.
Qed.

Lemma handle_eq req σ : handle req σ = ((handle req σ).1, σ).
Proof.
  rewrite <- (handle_state req σ) at 3. by destruct (handle req σ).
Qed.

Lemma serve_cons req reqs σ :
  serve (req :: reqs) σ = ((handle req σ).1 :: (serve reqs σ).1, (serve reqs σ).2).
Proof.
  simpl. rewrite (handle_eq req σ). by destruct (serve reqs σ).
Qed.

Lemma serve_state reqs σ : (serve reqs σ).2 = σ.
Proof.
  induction reqs as [|req reqs IH]; [reflexivity |].
  rewrite serve_cons. exact IH.
Qed.

Lemma serve_answers reqs σ (T : Type) (τ : T) :
  (serve reqs σ).1 = map (fun req => (handle (Σ := T) req τ).1) reqs.
Proof.
  induction reqs as [|req reqs IH]; [reflexivity |].
  rewrite serve_cons. simpl. rewrite IH.
  by rewrite (handle_answer req σ T τ).
Qed.


Lemma handle_post_tasks (body : value) σ :
  handle (post_tasks body) σ =
    let '(r, σ') := call_view ep_create_task (post_tasks body) σ in (Some r, σ').
Proof. reflexivity. Qed.

Lemma handle_get_tasks (body : get_json_result) σ :
  handle (get_tasks body) σ =
    (Some (Returned
       {| status_code := 200; mimetype := "application/json";
          json := VList [VDict {[ "id" := VInt 1; "title" := VStr "Task 1" ]}] |}),
     σ).
Proof. reflexivity. Qed.

Lemma serve_app reqs reqs' σ :
  serve (reqs ++ reqs')%list σ =
    (((serve reqs σ).1 ++ (serve reqs' σ).1)%list, (serve reqs' σ).2).
Proof.
  induction reqs as [|req reqs IH].
  - simpl. by destruct (serve reqs' σ).
  - rewrite <- app_comm_cons, !serve_cons, IH. reflexivity.
Qed.

(** A created task always carries the literal identifier. *)
Lemma create_task_returned_id req σ resp :
  (call_view ep_create_task req σ).1 = Returned resp ->
  response_id resp = Some (VInt 2) /\ status_code resp = 201.
Proof.
  rewrite create_task_answer. cbn [fst].
  destruct (get_json req) as [body | code description]; [| discriminate].
  destruct (truthy body); [| discriminate].
  destruct (is_dict body); [| discriminate].
  destruct (title_truthy body); [| discriminate].
  intros [= <-]. split; reflexivity.
Qed.

(** The HTTP errors [create_task] ends in: its own [abort], or the one
    [get_json] raised. *)
Lemma create_task_aborted req σ code description :
  (call_view ep_create_task req σ).1 = Aborted code description ->
  (exists body, get_json req = Parsed body /\
     code = 400 /\ description = "title required") \/
  get_json req = Rejected code description.
Proof.
  rewrite create_task_answer. cbn [fst].
  destruct (get_json req) as [body | code' description'].
  - intros Hr. left. exists body. split; [reflexivity |].
    destruct (truthy body).
    + destruct (is_dict body); [| discriminate Hr].
      destruct (title_truthy body); [discriminate Hr |].
      by injection Hr as <- <-.
    + by injection Hr as <- <-.
  - intros [= <- <-]. by right.
Qed.

End Loop.

(** * The specification's claims *)

(** ** Creating a task *)

(** C1. For every non-empty string [t], [POST /api/tasks] with the body
    [{"title": t}] is answered with status 201 and the document
    [{"id": 2, "title": t}]: the title comes back unchanged and the
    identifier is the literal 2. The program state is left as it was. *)
Theorem create_task_echoes_title {Σ : Type} (t : string) (σ : Σ) :
  t <> "" ->
  handle (post_tasks (VDict {[ "title" := VStr t ]})) σ =
    (Some (Returned {| status_code := 201; mimetype := "application/json";
                       json := VDict {[ "id" := VInt 2; "title" := VStr t ]} |}),
     σ).
Proof.
  intros Ht. rewrite handle_post_tasks.
  rewrite (create_task_title_truthy _ σ {[ "title" := VStr t ]} (VStr t));
    [reflexivity | reflexivity | | by apply truthy_str_nonempty].
  apply lookup_singleton_eq.
Qed.

Lemma create_task_echoes_title_witness :
  "Buy milk" <> "" /\
  handle (post_tasks (VDict {[ "title" := VStr "Buy milk" ]})) [VNone] =
    (Some (Returned {| status_code := 201; mimetype := "application/json";
                       json := VDict {[ "id" := VInt 2;
                                        "title" := VStr "Buy milk" ]} |}),
     [VNone]).
Proof.
  split; [discriminate |].
  apply (create_task_echoes_title "Buy milk" [VNone]). discriminate.
Defined.

(** C2, as the specification words it, does not hold.  With the body
    [{"title": 0}] the title is neither missing nor the empty string, yet the
    answer is the 400 error; with the body [[1]] there is no title, yet the
    view ends in an [AttributeError] and not in the 400 error; and when the
    body is absent and the request names no JSON content type, it is
    [get_json] that raises, with status 415 and not 400. *)
Lemma create_task_missing_or_empty_counterexample :
  (let body := VDict {[ "title" := VInt 0 ]} in
   (handle (post_tasks body) tt).1 = Some (Aborted 400 "title required") /\
   ~ title_missing_or_empty body) /\
  (let body := VList [VInt 1] in
   title_missing_or_empty body /\
   (handle (post_tasks body) tt).1 = Some (Raised (AttributeError "list" "get")) /\
   status_of <$> (handle (post_tasks body) tt).1 = Some 500) /\
  (let req := {| method := POST; path := "/api/tasks";
                 get_json := unsupported_media_type |} in
   status_of <$> (handle req tt).1 = Some 415 /\
   (handle req tt).1 <> Some (Aborted 400 "title required")).
Proof.
  split; [split | split; [split; [| split] | split]].
  - vm_compute. reflexivity.
  - intros [H | H]; vm_compute in H; discriminate H.
  - left. reflexivity.
  - vm_compute. reflexivity.
  - vm_compute. reflexivity.
  - vm_compute. reflexivity.
  - vm_compute. discriminate.
Qed.

(** C2, amended. Take a [POST /api/tasks] whose body [get_json] parses into
    a document that is false in Python's sense or is a JSON object, that is,
    any document but a true non-object.  The answer is the 400 error
    "title required" exactly when the document has no title that is true in
    Python's sense (the document is null, false, 0, "", [] or {}, or it is
    an object whose title is missing or is one of those values), and it has
    status 201 exactly when the title is there and true. *)
Theorem create_task_fails_iff_title_falsy {Σ : Type} (body : value) (σ : Σ) :
  truthy body = false \/ is_dict body = true ->
  let r := (handle (post_tasks body) σ).1 in
  (r = Some (Aborted 400 "title required") <-> title_truthy body = false) /\
  (status_of <$> r = Some 201 <-> title_truthy body = true).
Proof.
  intros Hb. rewrite handle_post_tasks, create_task_answer.
  cbn [fst get_json post_tasks]. cbv zeta.
  destruct (truthy body) eqn:Ht.
  - destruct Hb as [Hb | Hb]; [discriminate Hb |]. rewrite Hb.
    destruct (title_truthy body); simpl; split; split; intros H;
      first [reflexivity | discriminate H].
  - rewrite (falsy_has_no_truthy_title body Ht).
    simpl; split; split; intros H; first [reflexivity | discriminate H].
Qed.

Lemma create_task_fails_iff_title_falsy_witness :
  (let body := VNone in
   (truthy body = false \/ is_dict body = true) /\
   let r := (handle (post_tasks body) [VNone]).1 in
   (r = Some (Aborted 400 "title required") <-> title_truthy body = false) /\
   (status_of <$> r = Some 201 <-> title_truthy body = true)) /\
  (let body := VDict ∅ in
   (truthy body = false \/ is_dict body = true) /\
   let r := (handle (post_tasks body) [VNone]).1 in
   (r = Some (Aborted 400 "title required") <-> title_truthy body = false) /\
   (status_of <$> r = Some 201 <-> title_truthy body = true)) /\
  (let body := VDict {[ "title" := VStr "" ]} in
   (truthy body = false \/ is_dict body = true) /\
   let r := (handle (post_tasks body) [VNone]).1 in
   (r = Some (Aborted 400 "title required") <-> title_truthy body = false) /\
   (status_of <$> r = Some 201 <-> title_truthy body = true)) /\
  (let body := VBool false in
   (truthy body = false \/ is_dict body = true) /\
   let r := (handle (post_tasks body) [VNone]).1 in
   (r = Some (Aborted 400 "title required") <-> title_truthy body = false) /\
   (status_of <$> r = Some 201 <-> title_truthy body = true)).
Proof.
  split; [| split; [| split]].
  - split; [left; reflexivity |].
    apply (create_task_fails_iff_title_falsy VNone [VNone]).
    left; reflexivity.
  - split; [right; reflexivity |].
    apply (create_task_fails_iff_title_falsy (VDict ∅) [VNone]).
    right; reflexivity.
  - split; [right; reflexivity |].
    apply (create_task_fails_iff_title_falsy
             (VDict {[ "title" := VStr "" ]}) [VNone]).
    right; reflexivity.
  - split; [left; reflexivity |].
    apply (create_task_fails_iff_title_falsy (VBool false) [VNone]).
    left; reflexivity.
Defined.

(** C5, as the specification words it, does not hold: not every client
    error [create_task] ends in is its own.  When the request names no JSON
    content type, [get_json] raises 415; when the body is not a JSON
    document, it raises 400 with the framework's description.  Neither
    carries "title required". *)
Lemma create_task_error_description_counterexample :
  (let req := {| method := POST; path := "/api/tasks";
                 get_json := unsupported_media_type |} in
   is_client_error (call_view ep_create_task req tt).1 = true /\
   status_of (call_view ep_create_task req tt).1 = 415 /\
   (call_view ep_create_task req tt).1 <> Aborted 400 "title required") /\
  (let req := {| method := POST; path := "/api/tasks";
                 get_json := bad_request |} in
   is_client_error (call_view ep_create_task req tt).1 = true /\
   status_of (call_view ep_create_task req tt).1 = 400 /\
   (call_view ep_create_task req tt).1 <> Aborted 400 "title required").
Proof.
  split; (split; [reflexivity | split; [reflexivity |]]);
    vm_compute; discriminate.
Qed.

(** C5, amended. Whenever [create_task] ends in a client error after
    [get_json] has returned, that error is the 400 raised by its own
    [abort] and it carries the description "title required".  The only
    other client errors it ends in are those [get_json] raises, which pass
    through with the framework's code and description. *)
Theorem create_task_client_error_origin {Σ : Type} (req : Request) (σ : Σ) :
  is_client_error (call_view ep_create_task req σ).1 = true ->
  (exists body : value,
     get_json req = Parsed body /\
     (call_view ep_create_task req σ).1 = Aborted 400 "title required") \/
  (exists (code : Z) (description : string),
     get_json req = Rejected code description /\
     (call_view ep_create_task req σ).1 = Aborted code description).
Proof.
  intros Hc.
  destruct (call_view ep_create_task req σ).1 as [resp|code description|e] eqn:Hr.
  - apply create_task_returned_id in Hr as [_ Hs].
    unfold is_client_error in Hc. simpl in Hc. rewrite Hs in Hc. discriminate Hc.
  - apply create_task_aborted in Hr as [(body & Hj & -> & ->) | Hj].
    + left. by exists body.
    + right. by exists code, description.
  - discriminate Hc.
Qed.

Lemma create_task_client_error_origin_witness :
  is_client_error (call_view ep_create_task (post_tasks VNone) [VNone]).1 = true /\
  ((exists body : value,
      get_json (post_tasks VNone) = Parsed body /\
      (call_view ep_create_task (post_tasks VNone) [VNone]).1 =
        Aborted 400 "title required") \/
   (exists (code : Z) (description : string),
      get_json (post_tasks VNone) = Rejected code description /\
      (call_view ep_create_task (post_tasks VNone) [VNone]).1 =
        Aborted code description)).
Proof.
  split; [reflexivity |].
  apply (create_task_client_error_origin (post_tasks VNone) [VNone]).
  reflexivity.
Defined.

(** C9. A title that is present but false in Python's sense (0, false,
    null, and likewise 0.0, [], {} and "") gives the 400 error; no task is
    created. *)
Theorem create_task_rejects_falsy_title {Σ : Type}
    (d : gmap string value) (v : value) (σ : Σ) :
  d !! "title" = Some v -> truthy v = false ->
  handle (post_tasks (VDict d)) σ = (Some (Aborted 400 "title required"), σ).
Proof.
  intros Hk Hv. rewrite handle_post_tasks.
  rewrite (create_task_title_falsy (post_tasks (VDict d)) σ d eq_refl);
    [reflexivity |].
  by rewrite Hk.
Qed.

Lemma create_task_rejects_falsy_title_witness :
  (({[ "title" := VInt 0 ]} : gmap string value) !! "title" = Some (VInt 0) /\
   truthy (VInt 0) = false /\
   handle (post_tasks (VDict {[ "title" := VInt 0 ]})) [VNone] =
     (Some (Aborted 400 "title required"), [VNone])) /\
  (({[ "title" := VBool false ]} : gmap string value) !! "title"
     = Some (VBool false) /\
   truthy (VBool false) = false /\
   handle (post_tasks (VDict {[ "title" := VBool false ]})) [VNone] =
     (Some (Aborted 400 "title required"), [VNone])) /\
  (({[ "title" := VNone ]} : gmap string value) !! "title" = Some VNone /\
   truthy VNone = false /\
   handle (post_tasks (VDict {[ "title" := VNone ]})) [VNone] =
     (Some (Aborted 400 "title required"), [VNone])).
Proof.
  split; [| split]; (split; [reflexivity | split; [reflexivity |]]).
  - apply (create_task_rejects_falsy_title
             {[ "title" := VInt 0 ]} (VInt 0) [VNone]); reflexivity.
  - apply (create_task_rejects_falsy_title
             {[ "title" := VBool false ]} (VBool false) [VNone]); reflexivity.
  - apply (create_task_rejects_falsy_title
             {[ "title" := VNone ]} VNone [VNone]); reflexivity.
Defined.

(** C10. The title's type is not checked: a title that is true in Python's
    sense and is not a string (the number 5, a non-empty array) is answered
    with status 201 and the same value as the title. *)
Theorem create_task_echoes_non_string_title {Σ : Type}
    (d : gmap string value) (v : value) (σ : Σ) :
  d !! "title" = Some v -> is_str v = false -> truthy v = true ->
  handle (post_tasks (VDict d)) σ =
    (Some (Returned {| status_code := 201; mimetype := "application/json";
                       json := VDict {[ "id" := VInt 2; "title" := v ]} |}),
     σ).
Proof.
  intros Hk _ Hv. rewrite handle_post_tasks.
  by rewrite (create_task_title_truthy (post_tasks (VDict d)) σ d v eq_refl Hk Hv).
Qed.

Lemma create_task_echoes_non_string_title_witness :
  (({[ "title" := VInt 5 ]} : gmap string value) !! "title" = Some (VInt 5) /\
   is_str (VInt 5) = false /\ truthy (VInt 5) = true /\
   handle (post_tasks (VDict {[ "title" := VInt 5 ]})) [VNone] =
     (Some (Returned {| status_code := 201; mimetype := "application/json";
                        json := VDict {[ "id" := VInt 2; "title" := VInt 5 ]} |}),
      [VNone])) /\
  (({[ "title" := VList [VInt 1] ]} : gmap string value) !! "title"
     = Some (VList [VInt 1]) /\
   is_str (VList [VInt 1]) = false /\ truthy (VList [VInt 1]) = true /\
   handle (post_tasks (VDict {[ "title" := VList [VInt 1] ]})) [VNone] =
     (Some (Returned {| status_code := 201; mimetype := "application/json";
                        json := VDict {[ "id" := VInt 2;
                                         "title" := VList [VInt 1] ]} |}),
      [VNone])).
Proof.
  split; (split; [reflexivity | split; [reflexivity | split; [reflexivity |]]]).
  - apply (create_task_echoes_non_string_title
             {[ "title" := VInt 5 ]} (VInt 5) [VNone]); reflexivity.
  - apply (create_task_echoes_non_string_title
             {[ "title" := VList [VInt 1] ]} (VList [VInt 1]) [VNone]);
      reflexivity.
Defined.

(** C4. Of any two successive invocations of [create_task] that both
    succeed, the second running in the state the first left, both answers
    carry the identifier 2: it is the same for every title and every state,
    so no counter or store stands behind it. *)
Theorem create_task_id_constant {Σ : Type}
    (req1 req2 : Request) (σ : Σ) (resp1 resp2 : Response) :
  (call_view ep_create_task req1 σ).1 = Returned resp1 ->
  (call_view ep_create_task req2 (call_view ep_create_task req1 σ).2).1
    = Returned resp2 ->
  response_id resp1 = Some (VInt 2) /\ response_id resp2 = Some (VInt 2).
Proof.
  intros H1 H2. split.
  - exact (proj1 (create_task_returned_id req1 σ resp1 H1)).
  - exact (proj1 (create_task_returned_id req2 _ resp2 H2)).
Qed.

Lemma create_task_id_constant_witness :
  let req1 := post_tasks (VDict {[ "title" := VStr "Buy milk" ]}) in
  let req2 := post_tasks (VDict {[ "title" := VStr "Walk the dog" ]}) in
  let resp1 := {| status_code := 201; mimetype := "application/json";
                  json := VDict {[ "id" := VInt 2; "title" := VStr "Buy milk" ]} |} in
  let resp2 := {| status_code := 201; mimetype := "application/json";
                  json := VDict {[ "id" := VInt 2;
                                   "title" := VStr "Walk the dog" ]} |} in
  (call_view ep_create_task req1 [VNone]).1 = Returned resp1 /\
  (call_view ep_create_task req2 (call_view ep_create_task req1 [VNone]).2).1
    = Returned resp2 /\
  response_id resp1 = Some (VInt 2) /\ response_id resp2 = Some (VInt 2).
Proof.
  intros req1 req2 resp1 resp2.
  assert ((call_view ep_create_task req1 [VNone]).1 = Returned resp1) as H1
    by (vm_compute; reflexivity).
  assert ((call_view ep_create_task req2
             (call_view ep_create_task req1 [VNone]).2).1 = Returned resp2) as H2
    by (vm_compute; reflexivity).
  split; [exact H1 | split; [exact H2 |]].
  exact (create_task_id_constant req1 req2 [VNone] resp1 resp2 H1 H2).
Defined.

(** ** Listing the tasks *)

(** C3. Every [GET /api/tasks], whatever the request carries and whatever
    the state, is answered with status 200 and the array whose single
    element is the object with [id] 1 and [title] "Task 1". *)
Theorem list_tasks_fixed_response {Σ : Type} (body : get_json_result) (σ : Σ) :
  exists d : gmap string value,
    (handle (get_tasks body) σ).1 =
      Some (Returned {| status_code := 200; mimetype := "application/json";
                        json := VList [VDict d] |}) /\
    d = {[ "id" := VInt 1; "title" := VStr "Task 1" ]} /\
    d !! "id" = Some (VInt 1) /\
    d !! "title" = Some (VStr "Task 1") /\
    size d = 2%nat.
Proof.
  exists {[ "id" := VInt 1; "title" := VStr "Task 1" ]}.
  rewrite handle_get_tasks.
  split; [reflexivity | split; [reflexivity |]].
  split; [| split]; vm_compute; reflexivity.
Qed.

(** C6. [list_tasks] returns on every invocation: it neither aborts nor
    raises, in any state and for any request, and it leaves the state as it
    found it. *)
Theorem list_tasks_always_returns {Σ : Type} (req : Request) (σ : Σ) :
  (exists rv, list_tasks σ = (Returned rv, σ)) /\
  (exists resp, call_view ep_list_tasks req σ = (Returned resp, σ)).
Proof.
  split; eexists; [apply list_tasks_run | reflexivity].
Qed.

(** ** Requests do not see each other *)

(** C7. Both views are functions of their own request alone: the same
    request gets the same answer after any two histories of earlier
    requests, started in any two states; and the answers to a sequence of
    requests are the answers each request gets on its own, so the order of
    the others does not matter. *)
Theorem views_deterministic {Σ : Type} :
  (forall (e : endpoint) (req : Request) (h1 h2 : list Request) (σ1 σ2 : Σ),
     (call_view e req (serve h1 σ1).2).1 = (call_view e req (serve h2 σ2).2).1) /\
  (forall (req : Request) (h1 h2 : list Request) (σ1 σ2 : Σ),
     (handle req (serve h1 σ1).2).1 = (handle req (serve h2 σ2).2).1) /\
  (forall (reqs : list Request) (σ σ' : Σ),
     (serve reqs σ).1 = map (fun req => (handle req σ').1) reqs).
Proof.
  split; [| split].
  - intros. apply call_view_answer.
  - intros. apply handle_answer.
  - intros. apply serve_answers.
Qed.

(** C8. [create_task] leaves the program state as it found it, whether it
    returns, aborts or raises; so does any sequence of requests; and a
    [GET /api/tasks] that follows any sequence of requests is still answered
    with the one literal task. *)
Theorem create_task_changes_nothing {Σ : Type} :
  (forall (req : Request) (σ : Σ), (create_task req σ).2 = σ) /\
  (forall (req : Request) (σ : Σ), (handle req σ).2 = σ) /\
  (forall (h : list Request) (body : get_json_result) (σ : Σ),
     serve (h ++ [get_tasks body])%list σ =
       (((serve h σ).1 ++
         [Some (Returned
            {| status_code := 200; mimetype := "application/json";
               json := VList [VDict {[ "id" := VInt 1;
                                       "title" := VStr "Task 1" ]}] |})])%list,
        σ)).
Proof.
  split; [| split].
  - intros. apply create_task_state.
  - intros. apply handle_state.
  - intros. rewrite serve_app, serve_cons, handle_get_tasks. reflexivity.
Qed.

(** * Further properties of the module *)

(** ** Which requests reach which view *)



(** ** Bodies that are not JSON objects *)

(** X2. A body that is true in Python's sense but is not a JSON object (a
    non-empty array or string, a non-zero number, [true]) is not rejected
    with the 400 error: [data.get] raises [AttributeError] naming the body's
    type, and the state is left as it was. *)
Theorem create_task_non_object_body {Σ : Type} (body : value) (σ : Σ) :
  truthy body = true -> is_dict body = false ->
  handle (post_tasks body) σ =
    (Some (Raised (AttributeError (type_name body) "get")), σ).
Proof.
  intros Ht Hd. rewrite handle_post_tasks.
  unfold call_view, bind, view_functions.
  by rewrite (create_task_no_get (post_tasks body) σ body eq_refl Ht Hd).
Qed.

Lemma create_task_non_object_body_witness :
  truthy (VStr "Buy milk") = true /\ is_dict (VStr "Buy milk") = false /\
  handle (post_tasks (VStr "Buy milk")) [VNone] =
    (Some (Raised (AttributeError "str" "get")), [VNone]).
Proof.
  split; [reflexivity | split; [reflexivity |]].
  apply (create_task_non_object_body (VStr "Buy milk") [VNone]); reflexivity.
Defined.

(** X3. A body that is false in Python's sense, of whatever type ([null],
    [false], [0], [0.0], the empty string, the empty array, the empty
    object), is answered with the 400 error "title required": [.get] is
    never reached. *)
Theorem create_task_falsy_body_rejected {Σ : Type} (body : value) (σ : Σ) :
  truthy body = false ->
  handle (post_tasks body) σ = (Some (Aborted 400 "title required"), σ).
Proof.
  intros Ht. rewrite handle_post_tasks.
  unfold call_view, bind, view_functions.
  by rewrite (create_task_falsy_body (post_tasks body) σ body eq_refl Ht).
Qed.

Lemma create_task_falsy_body_rejected_witness :
  (truthy (VList []) = false /\
   handle (post_tasks (VList [])) [VNone] =
     (Some (Aborted 400 "title required"), [VNone])) /\
  (truthy (VFloat (S754_zero true)) = false /\
   handle (post_tasks (VFloat (S754_zero true))) [VNone] =
     (Some (Aborted 400 "title required"), [VNone])).
Proof.
  split; (split; [reflexivity |]).
  - apply (create_task_falsy_body_rejected (VList []) [VNone]); reflexivity.
  - apply (create_task_falsy_body_rejected (VFloat (S754_zero true)) [VNone]);
      reflexivity.
Defined.

(** ** Every request, classified *)


(** ** What a success tells *)

(** X5. If [create_task] returns at all, the request's body was a JSON
    object with a title true in Python's sense, and the response is exactly
    status 201 with the two members [id] = 2 and [title] = that title:
    whatever else the body held, a client's own [id] included, is not in the
    answer. *)
Theorem create_task_success_inversion {Σ : Type}
    (req : Request) (σ : Σ) (resp : Response) :
  (call_view ep_create_task req σ).1 = Returned resp ->
  exists (d : gmap string value) (v : value),
    get_json req = Parsed (VDict d) /\ d !! "title" = Some v /\
    truthy v = true /\
    resp = {| status_code := 201; mimetype := "application/json";
              json := VDict {[ "id" := VInt 2; "title" := v ]} |}.
Proof.
  rewrite create_task_answer. cbn [fst].
  destruct (get_json req) as [body | code description]; [| discriminate].
  destruct (truthy body); [| discriminate].
  destruct (is_dict body) eqn:Hd; [| discriminate].
  destruct body as [| | | | | |d]; try discriminate Hd.
  unfold title_truthy, title_field.
  destruct (d !! "title") as [v|] eqn:Hk; [| discriminate].
  destruct (truthy v) eqn:Hv; [| discriminate].
  intros [= <-]. exists d, v. by rewrite Hk.
Qed.

Lemma create_task_success_inversion_witness :
  let req := post_tasks (VDict {[ "title" := VStr "Buy milk";
                                  "id" := VInt 99;
                                  "done" := VBool true ]}) in
  let resp := {| status_code := 201; mimetype := "application/json";
                 json := VDict {[ "id" := VInt 2;
                                  "title" := VStr "Buy milk" ]} |} in
  (call_view ep_create_task req [VNone]).1 = Returned resp /\
  exists (d : gmap string value) (v : value),
    get_json req = Parsed (VDict d) /\ d !! "title" = Some v /\
    truthy v = true /\
    resp = {| status_code := 201; mimetype := "application/json";
              json := VDict {[ "id" := VInt 2; "title" := v ]} |}.
Proof.
  intros req resp.
  assert ((call_view ep_create_task req [VNone]).1 = Returned resp) as Hrun
    by (vm_compute; reflexivity).
  split; [exact Hrun |].
  exact (create_task_success_inversion req [VNone] resp Hrun).
Defined.

(** X6. For a body that is a JSON object, only its [title] member counts:
    two objects with the same title member (or both without one) get the
    same answer, whatever their other members are, the empty object
    included. *)
Theorem create_task_reads_title_only {Σ : Type}
    (d1 d2 : gmap string value) (σ : Σ) :
  d1 !! "title" = d2 !! "title" ->
  handle (post_tasks (VDict d1)) σ = handle (post_tasks (VDict d2)) σ.
Proof.
  intros Heq. rewrite !handle_post_tasks.
  destruct (d1 !! "title") as [v|] eqn:H1; symmetry in Heq.
  - destruct (truthy v) eqn:Hv.
    + rewrite (create_task_title_truthy (post_tasks (VDict d1)) σ d1 v eq_refl H1 Hv).
      by rewrite (create_task_title_truthy (post_tasks (VDict d2)) σ d2 v eq_refl Heq Hv).
    + rewrite (create_task_title_falsy (post_tasks (VDict d1)) σ d1 eq_refl)
        by (by rewrite H1).
      by rewrite (create_task_title_falsy (post_tasks (VDict d2)) σ d2 eq_refl)
        by (by rewrite Heq).
  - rewrite (create_task_title_falsy (post_tasks (VDict d1)) σ d1 eq_refl)
      by (by rewrite H1).
    by rewrite (create_task_title_falsy (post_tasks (VDict d2)) σ d2 eq_refl)
      by (by rewrite Heq).
Qed.

Lemma create_task_reads_title_only_witness :
  let d1 : gmap string value :=
    {[ "title" := VStr "Buy milk"; "id" := VInt 99 ]} in
  let d2 : gmap string value := {[ "title" := VStr "Buy milk" ]} in
  d1 !! "title" = d2 !! "title" /\
  handle (post_tasks (VDict d1)) [VNone] = handle (post_tasks (VDict d2)) [VNone].
Proof.
  intros d1 d2.
  assert (d1 !! "title" = d2 !! "title") as Heq by (vm_compute; reflexivity).
  split; [exact Heq |].
  exact (create_task_reads_title_only d1 d2 [VNone] Heq).
Defined.
